(** * Context serializer: [app/core/retrieval/serialization.py]

    A shallow embedding of the two serializers [serialize_chunks] and
    [serialize_chunks_with_ids], and the properties of their output.

    Modelling choices.
    - A Python [str] is a [string]; every [ascii] stands for the code point
      of the same number (0..255).
    - A metadata value is one of [None], a [bool], an [int] or a [str]
      ([pyval]); the metadata dict is a [gmap string pyval].
    - The serializers as functions render every [int] in decimal; that
      CPython refuses to render an [int] of more than 4300 digits is part
      of the run-time model [Dynamic], where calls can raise.
    - The [citations] dict is an insertion-ordered association list
      ([pydict]), with Python's [d[k] = v]: an existing key keeps its place
      and gets the new value, a new key goes to the end.
    - The [for] loops are left folds of the loop body over
      [enumerate docs 1]. *)

From stdpp Require Import base decidable option list strings pretty gmap.
From Stdlib Require Import ZArith Ascii.

Local Open Scope Z_scope.

(** ** Python values *)

Module Py.

Inductive pyval : Type :=
| PyNone
| PyBool (b : bool)
| PyInt (z : Z)
| PyStr (s : string).

(** [bool(v)] *)
Definition truthy (v : pyval) : bool :=
  match v with
  | PyNone => false
  | PyBool b => b
  | PyInt z => negb (z =? 0)
  | PyStr s => negb (String.eqb s "")
  end.

(** [a or b]; both operands here are pure, so short-circuiting is not
    observable beyond the value returned. *)
Definition py_or (a b : pyval) : pyval := if truthy a then a else b.

(** [format(v, "")], what an f-string field [{v}] renders. *)
Definition py_format (v : pyval) : string :=
  match v with
  | PyNone => "None"
  | PyBool true => "True"
  | PyBool false => "False"
  | PyInt z => pretty z
  | PyStr s => s
  end.

(** [m.get(k)] and [m.get(k, dflt)] *)
Definition dict_get (m : gmap string pyval) (k : string) : pyval :=
  default PyNone (m !! k).

Definition dict_get_default (m : gmap string pyval) (k : string)
    (dflt : pyval) : pyval :=
  default dflt (m !! k).

(** The line feed character and the one-character string ["\n"]. *)
Definition LF : ascii := "010"%char.
Definition nl : string := String LF EmptyString.

(** [str.isspace] on one code point below 256: TAB, LF, VT, FF, CR, the
    four separators FS GS RS US, SPACE, NEL and NBSP. *)
Definition is_space (c : ascii) : bool :=
  let n := N_of_ascii c in
  (((9 <=? n) && (n <=? 13)) || ((28 <=? n) && (n <=? 32))
   || (n =? 133) || (n =? 160))%N.

(** [s.lstrip()], [s.rstrip()], [s.strip()] *)
Fixpoint lstrip (s : string) : string :=
  match s with
  | EmptyString => EmptyString
  | String c s' => if is_space c then lstrip s' else s
  end.

Fixpoint rstrip (s : string) : string :=
  match s with
  | EmptyString => EmptyString
  | String c s' =>
      match rstrip s' with
      | EmptyString => if is_space c then EmptyString else String c EmptyString
      | r => String c r
      end
  end.

Definition strip (s : string) : string := rstrip (lstrip s).

(** [s[:n]] for a non-negative [n] *)
Fixpoint slice_to (n : nat) (s : string) : string :=
  match n, s with
  | S n', String c s' => String c (slice_to n' s')
  | _, _ => EmptyString
  end.

(** [sep.join(parts)] *)
Fixpoint join (sep : string) (parts : list string) : string :=
  match parts with
  | [] => EmptyString
  | [p] => p
  | p :: ps => p +:+ sep +:+ join sep ps
  end.

(** [enumerate(l, start)] *)
Fixpoint enumerate {A : Type} (l : list A) (start : Z) : list (Z * A) :=
  match l with
  | [] => []
  | x :: l' => (start, x) :: enumerate l' (start + 1)
  end.

(** An insertion-ordered dict with string keys. *)
Abbreviation pydict V := (list (string * V)) (only parsing).

(** [d[k] = v] *)
Fixpoint dict_setitem {V : Type} (k : string) (v : V) (d : pydict V)
    : pydict V :=
  match d with
  | [] => [(k, v)]
  | (k', v') :: d' =>
      if decide (k' = k) then (k', v) :: d'
      else (k', v') :: dict_setitem k v d'
  end.

(** [d.get(k)], with [None] for an absent key *)
Fixpoint dict_lookup {V : Type} (k : string) (d : pydict V) : option V :=
  match d with
  | [] => None
  | (k', v') :: d' => if decide (k' = k) then Some v' else dict_lookup k d'
  end.

(** [list(d.keys())] *)
Definition dict_keys {V : Type} (d : pydict V) : list string := d.*1.

End Py.

Import Py.

(** ** The data model *)

(** [langchain_core.documents.Document]: the two fields the module reads. *)
Record Document : Type := mkDocument {
  page_content : string;
  metadata : gmap string pyval
}.

(** The dict literal [{"page": .., "source": .., "snippet": ..}] stored per
    citation id. *)
Record citation : Type := mkCitation {
  cit_page : pyval;
  cit_source : pyval;
  cit_snippet : string
}.

(** ** The serializers *)

(** [doc.metadata.get("page") or doc.metadata.get("page_number", "unknown")] *)
Definition page_num_of (doc : Document) : pyval :=
  py_or (dict_get (metadata doc) "page")
        (dict_get_default (metadata doc) "page_number" (PyStr "unknown")).

(** Body of the loop of [serialize_chunks]. *)
Definition serialize_chunks_body (context_parts : list string)
    (it : Z * Document) : list string :=
  let '(idx, doc) := it in
  let page_num := page_num_of doc in
  let chunk_header :=
    "Chunk " +:+ py_format (PyInt idx) +:+ " (page=" +:+ py_format page_num
      +:+ "):" in
  let chunk_content := strip (page_content doc) in
  (context_parts ++ [chunk_header +:+ nl +:+ chunk_content]).

(** [context_parts] when the loop of [serialize_chunks] ends. *)
Definition serialize_chunks_parts (docs : list Document) : list string :=
  fold_left serialize_chunks_body (enumerate docs 1) [].

Definition serialize_chunks (docs : list Document) : string :=
  join (nl +:+ nl) (serialize_chunks_parts docs).

(** Body of the loop of [serialize_chunks_with_ids]. *)
Definition serialize_chunks_with_ids_body
    (st : list string * pydict citation) (it : Z * Document)
    : list string * pydict citation :=
  let '(context_parts, citations) := st in
  let '(idx, doc) := it in
  let chunk_id := "C" +:+ py_format (PyInt idx) in
  let page_num := page_num_of doc in
  let source := dict_get_default (metadata doc) "source" (PyStr "unknown") in
  let chunk_content := strip (page_content doc) in
  ((context_parts ++
     ["[" +:+ chunk_id +:+ "] Chunk from page " +:+ py_format page_num
        +:+ ":" +:+ nl +:+ chunk_content]),
   dict_setitem chunk_id
     {| cit_page := page_num;
        cit_source := source;
        cit_snippet := slice_to 100 chunk_content +:+ "..." |}
     citations).

(** [(context_parts, citations)] when the loop ends. *)
Definition serialize_chunks_with_ids_loop (docs : list Document)
    : list string * pydict citation :=
  fold_left serialize_chunks_with_ids_body (enumerate docs 1) ([], []).

Definition serialize_chunks_with_ids (docs : list Document)
    : string * pydict citation :=
  let '(context_parts, citations) := serialize_chunks_with_ids_loop docs in
  (join (nl +:+ nl) context_parts, citations).

(** ** Concrete inputs *)

Definition doc_alpha : Document :=
  mkDocument "Alpha text."
    (<["page" := PyInt 1]> (<["source" := PyStr "doc.pdf"]> ∅)).

Definition doc_beta : Document :=
  mkDocument "Beta text." (<["page_number" := PyInt 2]> ∅).

(** ** The same code under dynamic typing

    Python checks nothing before the loop runs: [doc.metadata.get] and
    [doc.page_content.strip] raise [AttributeError] when the attribute holds
    an object without that method, and an f-string field raises [ValueError]
    when it has to render an [int] of more than 4300 decimal digits.  Here
    the two attributes hold arbitrary objects, and every method call and
    every f-string field can raise, in the order the source evaluates
    them. *)

Module Dynamic.

Inductive pyobj : Type :=
| OVal (v : pyval)
| ODict (m : gmap string pyval).

Inductive exn : Type :=
| AttributeError
| ValueError.

Inductive result (A : Type) : Type :=
| Ok (a : A)
| Raise (e : exn).
Arguments Ok {A} a.
Arguments Raise {A} e.

Definition bind {A B : Type} (r : result A) (k : A → result B) : result B :=
  match r with
  | Ok a => k a
  | Raise e => Raise e
  end.

Notation "x ←! r ; k" := (bind r (λ x, k))
  (at level 20, r at level 100, k at level 200, right associativity,
   only parsing).

Record RawDocument : Type := mkRawDocument {
  raw_page_content : pyobj;
  raw_metadata : pyobj
}.

(** [o.get(k, dflt)]: only a dict has [get]. *)
Definition get_method (o : pyobj) (k : string) (dflt : pyval)
    : result pyval :=
  match o with
  | ODict m => Ok (dict_get_default m k dflt)
  | OVal _ => Raise AttributeError
  end.

(** [o.strip()]: only a [str] has [strip]. *)
Definition strip_method (o : pyobj) : result string :=
  match o with
  | OVal (PyStr s) => Ok (strip s)
  | _ => Raise AttributeError
  end.

(** [sys.int_info.default_max_str_digits]: the most decimal digits an [int]
    may have when it is converted to [str]. *)
Definition max_str_digits : Z := 4300.

(** The least magnitude with more digits than that. *)
Definition int_str_bound : Z := 10 ^ max_str_digits.

(** Whether [format(v, "")] returns: the sign of an [int] does not count as
    a digit; [None], a [bool] and a [str] always format. *)
Definition formats (v : pyval) : bool :=
  match v with
  | PyInt z => Z.abs z <? int_str_bound
  | _ => true
  end.

(** [format(v, "")] as an f-string field [{v}] evaluates it. *)
Definition format_method (v : pyval) : result string :=
  if formats v then Ok (py_format v) else Raise ValueError.

(** [for x in l: st = body(st, x)], stopping at the first exception. *)
Fixpoint for_each {St A : Type} (body : St → A → result St) (l : list A)
    (st : St) : result St :=
  match l with
  | [] => Ok st
  | x :: l' => st' ←! body st x; for_each body l' st'
  end.

(** The right operand of [or] is evaluated only when the left one is
    falsy. *)
Definition run_page_num (doc : RawDocument) : result pyval :=
  p ←! get_method (raw_metadata doc) "page" PyNone;
  if truthy p then Ok p
  else get_method (raw_metadata doc) "page_number" (PyStr "unknown").

Definition run_serialize_chunks_body (context_parts : list string)
    (it : Z * RawDocument) : result (list string) :=
  let '(idx, doc) := it in
  page_num ←! run_page_num doc;
  idx_field ←! format_method (PyInt idx);
  page_num_field ←! format_method page_num;
  let chunk_header :=
    "Chunk " +:+ idx_field +:+ " (page=" +:+ page_num_field +:+ "):" in
  chunk_content ←! strip_method (raw_page_content doc);
  Ok (context_parts ++ [chunk_header +:+ nl +:+ chunk_content]).

Definition run_serialize_chunks (docs : list RawDocument) : result string :=
  context_parts ←! for_each run_serialize_chunks_body (enumerate docs 1) [];
  Ok (join (nl +:+ nl) context_parts).

Definition run_serialize_chunks_with_ids_body
    (st : list string * pydict citation) (it : Z * RawDocument)
    : result (list string * pydict citation) :=
  let '(context_parts, citations) := st in
  let '(idx, doc) := it in
  idx_field ←! format_method (PyInt idx);
  let chunk_id := "C" +:+ idx_field in
  page_num ←! run_page_num doc;
  source ←! get_method (raw_metadata doc) "source" (PyStr "unknown");
  chunk_content ←! strip_method (raw_page_content doc);
  page_num_field ←! format_method page_num;
  Ok ((context_parts ++
         ["[" +:+ chunk_id +:+ "] Chunk from page " +:+ page_num_field
            +:+ ":" +:+ nl +:+ chunk_content]),
      dict_setitem chunk_id
        {| cit_page := page_num;
           cit_source := source;
           cit_snippet := slice_to 100 chunk_content +:+ "..." |}
        citations).

Definition run_serialize_chunks_with_ids (docs : list RawDocument)
    : result (string * pydict citation) :=
  st ←! for_each run_serialize_chunks_with_ids_body (enumerate docs 1)
          ([], []);
  Ok (join (nl +:+ nl) st.1, st.2).

(** A passage as the retrieval layer builds it: the content is a [str] and
    the metadata is a dict. *)
Definition well_formed (doc : RawDocument) : bool :=
  match raw_page_content doc, raw_metadata doc with
  | OVal (PyStr _), ODict _ => true
  | _, _ => false
  end.

(** The page value the passage's f-string field renders has at most
    [max_str_digits] digits when it is an [int]. *)
Definition page_formats (doc : RawDocument) : bool :=
  match raw_metadata doc with
  | ODict m =>
      formats (py_or (dict_get m "page")
                 (dict_get_default m "page_number" (PyStr "unknown")))
  | OVal _ => false
  end.

Definition to_raw (doc : Document) : RawDocument :=
  {| raw_page_content := OVal (PyStr (page_content doc));
     raw_metadata := ODict (metadata doc) |}.

End Dynamic.

(** ** What one loop iteration contributes *)

(** The header and the block appended by [serialize_chunks] for the passage
    enumerated as [idx]. *)
Definition plain_header (idx : Z) (doc : Document) : string :=
  "Chunk " +:+ pretty idx +:+ " (page=" +:+ py_format (page_num_of doc)
    +:+ "):".

Definition plain_block (idx : Z) (doc : Document) : string :=
  plain_header idx doc +:+ nl +:+ strip (page_content doc).

(** The citation id, block and record of [serialize_chunks_with_ids] for the
    passage enumerated as [idx]. *)
Definition chunk_id_of (idx : Z) : string := "C" +:+ pretty idx.

Definition cited_header (idx : Z) (doc : Document) : string :=
  "[" +:+ chunk_id_of idx +:+ "] Chunk from page "
    +:+ py_format (page_num_of doc) +:+ ":".

Definition cited_block (idx : Z) (doc : Document) : string :=
  cited_header idx doc +:+ nl +:+ strip (page_content doc).

Definition citation_of (doc : Document) : citation :=
  {| cit_page := page_num_of doc;
     cit_source :=
       dict_get_default (metadata doc) "source" (PyStr "unknown");
     cit_snippet := slice_to 100 (strip (page_content doc)) +:+ "..." |}.

(** ** Page resolution as the specification words it

    [page] when present and truthy; otherwise [page_number] when present;
    otherwise the string ["unknown"]. *)
Definition resolved_page (m : gmap string pyval) : pyval :=
  let fallback :=
    match m !! "page_number" with
    | Some w => w
    | None => PyStr "unknown"
    end in
  match m !! "page" with
  | Some v => if truthy v then v else fallback
  | None => fallback
  end.

(** ** More concrete inputs *)

Definition doc_page0 : Document :=
  mkDocument "Gamma."
    (<["page" := PyInt 0]> (<["page_number" := PyInt 9]> ∅)).

Definition doc_empty_source : Document :=
  mkDocument "Delta." (<["source" := PyStr ""]> ∅).

Definition doc_padded : Document :=
  mkDocument ("  hello world  " +:+ nl) ∅.

Definition doc_two_lines : Document :=
  mkDocument ("line1" +:+ nl +:+ "line2") ∅.

Definition doc_blank : Document :=
  mkDocument (" " +:+ nl +:+ "  ") (<["page" := PyInt 4]> ∅).

Definition text50 : string :=
  "0123456789abcdefghijklmnopqrstuvwxyzABCDEFGHIJKLMN".

Definition doc_50 : Document := mkDocument text50 ∅.

Definition doc_150 : Document :=
  mkDocument (text50 +:+ text50 +:+ text50) ∅.

(** A passage whose [page] is [10 ** 4300], an [int] of 4301 digits, and one
    whose [page] is [10 ** 4300 - 1], of 4300 digits. *)
Definition doc_huge_page : Document :=
  mkDocument "Zeta." (<["page" := PyInt Dynamic.int_str_bound]> ∅).

Definition doc_large_page : Document :=
  mkDocument "Eta." (<["page" := PyInt (Dynamic.int_str_bound - 1)]> ∅).

(** A passage with only a falsy [page]. *)
Definition doc_only_page0 : Document :=
  mkDocument "Epsilon." (<["page" := PyInt 0]> ∅).

(** [doc_alpha] as another retriever could return it: padded content and
    one more metadata key. *)
Definition doc_alpha_noisy : Document :=
  mkDocument ("  Alpha text." +:+ nl)
    (<["author" := PyStr "A. N. Other"]> (metadata doc_alpha)).

(** ** Whitespace at the two ends of a string *)

Fixpoint all_space (s : string) : bool :=
  match s with
  | EmptyString => true
  | String c s' => is_space c && all_space s'
  end.

Definition starts_with_space (s : string) : bool :=
  match s with
  | EmptyString => false
  | String c _ => is_space c
  end.

Fixpoint ends_with_space (s : string) : bool :=
  match s with
  | EmptyString => false
  | String c EmptyString => is_space c
  | String _ s' => ends_with_space s'
  end.

(** ** Strings *)

Section Strings.

Lemma append_nil_l (b : string) : "" +:+ b = b.
Proof. reflexivity. Qed.

Lemma append_cons (x : ascii) (a b : string) :
  String x a +:+ b = String x (a +:+ b).
Proof. reflexivity. Qed.

Lemma append_assoc (a b c : string) : (a +:+ b) +:+ c = a +:+ b +:+ c.
Proof.
  induction a as [|x a IH]; [done|]. by rewrite !append_cons, IH.
Qed.

Lemma append_nil_r (a : string) : a +:+ "" = a.
Proof.
  induction a as [|x a IH]; [done|]. by rewrite append_cons, IH.
Qed.

(** *** Whitespace at the two ends *)

Lemma lstrip_all_space (s : string) : all_space s = true → lstrip s = "".
Proof.
  induction s as [|c s IH]; [done|]. cbn [all_space lstrip].
  intros [Hc Hs]%andb_prop. rewrite Hc. auto.
Qed.

Lemma lstrip_app_space (l s : string) :
  all_space l = true → lstrip (l +:+ s) = lstrip s.
Proof.
  induction l as [|c l IH]; [done|]. cbn [all_space].
  intros [Hc Hl]%andb_prop. rewrite append_cons. cbn [lstrip].
  rewrite Hc. auto.
Qed.

Lemma lstrip_fixed (s : string) : starts_with_space s = false → lstrip s = s.
Proof. destruct s as [|c s]; [done|]. cbn. by intros ->. Qed.

Lemma lstrip_starts (s : string) : starts_with_space (lstrip s) = false.
Proof.
  induction s as [|c s IH]; [done|]. cbn [lstrip].
  destruct (is_space c) eqn:Hc; [done|]. cbn. by rewrite Hc.
Qed.

Lemma lstrip_split (s : string) :
  ∃ l, s = l +:+ lstrip s ∧ all_space l = true.
Proof.
  induction s as [|c s [l [Hl Hsp]]]; [by exists ""|]. cbn [lstrip].
  destruct (is_space c) eqn:Hc.
  - exists (String c l). rewrite append_cons, <- Hl. cbn. by rewrite Hc, Hsp.
  - by exists "".
Qed.

Lemma rstrip_all_space (s : string) : all_space s = true → rstrip s = "".
Proof.
  induction s as [|c s IH]; [done|]. cbn [all_space rstrip].
  intros [Hc Hs]%andb_prop. by rewrite (IH Hs), Hc.
Qed.

Lemma rstrip_app_space (s r : string) :
  all_space r = true → rstrip (s +:+ r) = rstrip s.
Proof.
  intros Hr. induction s as [|c s IH].
  - rewrite append_nil_l. by apply rstrip_all_space.
  - rewrite append_cons. cbn [rstrip]. by rewrite IH.
Qed.

Lemma rstrip_fixed (s : string) : ends_with_space s = false → rstrip s = s.
Proof.
  induction s as [|c s IH]; [done|]. cbn [ends_with_space rstrip].
  destruct s as [|c' s].
  - cbn. by intros ->.
  - intros Hs. by rewrite (IH Hs).
Qed.

Lemma rstrip_ends (s : string) : ends_with_space (rstrip s) = false.
Proof.
  induction s as [|c s IH]; [done|]. cbn [rstrip].
  destruct (rstrip s) as [|c' r] eqn:Hr.
  - destruct (is_space c) eqn:Hc; [done|]. cbn. by rewrite Hc.
  - done.
Qed.

Lemma rstrip_split (s : string) :
  ∃ r, s = rstrip s +:+ r ∧ all_space r = true.
Proof.
  induction s as [|c s [r [Hr Hsp]]]; [by exists ""|]. cbn [rstrip].
  destruct (rstrip s) as [|c' t] eqn:Ht.
  - rewrite append_nil_l in Hr. subst r.
    destruct (is_space c) eqn:Hc.
    + exists (String c s). split; [done|]. cbn. by rewrite Hc, Hsp.
    + exists s. by rewrite append_cons, append_nil_l.
  - exists r. by rewrite append_cons, <- Hr.
Qed.

Lemma rstrip_starts (s : string) :
  starts_with_space s = false → starts_with_space (rstrip s) = false.
Proof.
  destruct s as [|c s]; [done|]. cbn [starts_with_space rstrip].
  intros Hc. rewrite Hc. by destruct (rstrip s); cbn.
Qed.

(** [strip] takes whitespace off both ends and nothing else... *)
Lemma strip_split (s : string) :
  ∃ l r, s = l +:+ strip s +:+ r
         ∧ all_space l = true ∧ all_space r = true
         ∧ starts_with_space (strip s) = false
         ∧ ends_with_space (strip s) = false.
Proof.
  destruct (lstrip_split s) as [l [Hl Hlsp]].
  destruct (rstrip_split (lstrip s)) as [r [Hr Hrsp]].
  exists l, r. unfold strip. rewrite <- Hr, <- Hl.
  repeat split; auto using rstrip_ends, rstrip_starts, lstrip_starts.
Qed.

(** ...and whatever lies between the outer whitespace comes back as is. *)
Lemma strip_middle (l m r : string) :
  all_space l = true → all_space r = true →
  starts_with_space m = false → ends_with_space m = false →
  strip (l +:+ m +:+ r) = m.
Proof.
  intros Hl Hr Hs He. unfold strip. rewrite lstrip_app_space by done.
  destruct m as [|c m].
  - rewrite append_nil_l, lstrip_all_space by done. done.
  - rewrite lstrip_fixed by done.
    rewrite rstrip_app_space by done. by apply rstrip_fixed.
Qed.

Lemma strip_all_space (s : string) : all_space s = true → strip s = "".
Proof. intros Hs. unfold strip. by rewrite lstrip_all_space. Qed.

(** *** Slices *)

Lemma slice_to_prefix (n : nat) (s : string) :
  ∃ rest, s = slice_to n s +:+ rest.
Proof.
  revert s. induction n as [|n IH]; intros [|c s]; cbn [slice_to];
    try by eexists.
  destruct (IH s) as [rest Hrest]. exists rest.
  by rewrite append_cons, <- Hrest.
Qed.

Lemma slice_to_length (n : nat) (s : string) :
  String.length (slice_to n s) = Nat.min n (String.length s).
Proof.
  revert s. induction n as [|n IH]; intros [|c s]; cbn [slice_to]; try done.
  cbn. by rewrite IH.
Qed.

Lemma slice_to_short (n : nat) (s : string) :
  (String.length s <= n)%nat → slice_to n s = s.
Proof.
  revert s. induction n as [|n IH]; intros [|c s]; cbn; try done; try lia.
  intros Hle. rewrite IH; [done | lia].
Qed.

End Strings.

(** ** The loops in closed form *)

Section Loops.

Lemma enumerate_imap {A : Type} (l : list A) (start : Z) :
  enumerate l start = imap (λ i x, (start + Z.of_nat i, x)) l.
Proof.
  revert start. induction l as [|x l IH]; intros start; simpl; [done|].
  rewrite Z.add_0_r. f_equal. rewrite IH. apply imap_ext.
  intros i y _. simpl. f_equal. lia.
Qed.

Lemma enumerate_lookup {A : Type} (l : list A) (start : Z) (i : nat) :
  enumerate l start !! i = (λ x, (start + Z.of_nat i, x)) <$> l !! i.
Proof. by rewrite enumerate_imap, list_lookup_imap. Qed.

Lemma serialize_chunks_fold (its : list (Z * Document)) (acc : list string) :
  fold_left serialize_chunks_body its acc
  = (acc ++ ((λ it, plain_block it.1 it.2) <$> its)).
Proof.
  revert acc. induction its as [|[idx doc] its IH]; intros acc; simpl.
  - by rewrite app_nil_r.
  - by rewrite IH, <- app_assoc.
Qed.

Lemma serialize_chunks_parts_imap (docs : list Document) :
  serialize_chunks_parts docs
  = imap (λ i d, plain_block (Z.of_nat i + 1) d) docs.
Proof.
  unfold serialize_chunks_parts.
  rewrite serialize_chunks_fold, enumerate_imap. simpl.
  rewrite fmap_imap. apply imap_ext. intros i d _. cbn [compose fst snd].
  by rewrite (Z.add_comm 1).
Qed.

(** Assigning under a key the dict does not hold yet appends the entry. *)
Lemma dict_setitem_fresh {V : Type} (k : string) (v : V) (d : pydict V) :
  k ∉ dict_keys d → dict_setitem k v d = (d ++ [(k, v)]).
Proof.
  unfold dict_keys. induction d as [|[k' v'] d IH]; simpl; intros Hk; [done|].
  apply not_elem_of_cons in Hk as [Hne Hk].
  destruct (decide (k' = k)) as [->|_]; [done|]. by rewrite IH.
Qed.

Lemma chunk_id_of_inj : Inj (=) (=) chunk_id_of.
Proof.
  intros i j H. unfold chunk_id_of in H.
  apply (inj (String.app "C")) in H. by apply (inj pretty) in H.
Qed.

Lemma serialize_chunks_with_ids_body_eq (parts : list string)
    (cits : pydict citation) (idx : Z) (doc : Document) :
  serialize_chunks_with_ids_body (parts, cits) (idx, doc)
  = ((parts ++ [cited_block idx doc]),
     dict_setitem (chunk_id_of idx) (citation_of doc) cits).
Proof.
  unfold serialize_chunks_with_ids_body, cited_block, cited_header.
  by rewrite !append_assoc.
Qed.

Lemma serialize_chunks_with_ids_fold (docs : list Document) (start : Z)
    (parts : list string) (cits : pydict citation) :
  (∀ j, start ≤ j → chunk_id_of j ∉ dict_keys cits) →
  fold_left serialize_chunks_with_ids_body (enumerate docs start)
    (parts, cits)
  = ((parts ++ ((λ it, cited_block it.1 it.2) <$> enumerate docs start)),
     (cits ++ ((λ it, (chunk_id_of it.1, citation_of it.2))
                 <$> enumerate docs start))).
Proof.
  revert start parts cits.
  induction docs as [|doc docs IH]; intros start parts cits Hfresh;
    cbn [enumerate fold_left fmap list_fmap].
  - by rewrite !app_nil_r.
  - rewrite serialize_chunks_with_ids_body_eq.
    rewrite dict_setitem_fresh by (apply Hfresh; lia).
    rewrite IH.
    + by rewrite <- !app_assoc.
    + intros j Hj. unfold dict_keys. rewrite fmap_app. simpl.
      rewrite elem_of_app, list_elem_of_singleton.
      intros [Hin | Heq].
      * apply (Hfresh j); [lia | done].
      * apply chunk_id_of_inj in Heq. lia.
Qed.

Lemma serialize_chunks_with_ids_loop_imap (docs : list Document) :
  serialize_chunks_with_ids_loop docs
  = (imap (λ i d, cited_block (Z.of_nat i + 1) d) docs,
     imap (λ i d, (chunk_id_of (Z.of_nat i + 1), citation_of d)) docs).
Proof.
  unfold serialize_chunks_with_ids_loop.
  rewrite serialize_chunks_with_ids_fold.
  - cbn [app]. rewrite enumerate_imap, !fmap_imap.
    f_equal; apply imap_ext; intros i d _; cbn [compose fst snd];
      by rewrite (Z.add_comm 1).
  - intros j _. unfold dict_keys. simpl. apply not_elem_of_nil.
Qed.

End Loops.

(** ** Lookups in the two outputs *)

Section Lookups.

Variable docs : list Document.
Variables (i : nat) (d : Document).
Hypothesis Hd : docs !! i = Some d.

Lemma plain_part_lookup :
  serialize_chunks_parts docs !! i = Some (plain_block (Z.of_nat i + 1) d).
Proof. by rewrite serialize_chunks_parts_imap, list_lookup_imap, Hd. Qed.

Lemma cited_part_lookup :
  (serialize_chunks_with_ids_loop docs).1 !! i
  = Some (cited_block (Z.of_nat i + 1) d).
Proof.
  rewrite serialize_chunks_with_ids_loop_imap. cbn [fst].
  by rewrite list_lookup_imap, Hd.
Qed.

Lemma citations_entry_lookup :
  (serialize_chunks_with_ids_loop docs).2 !! i
  = Some (chunk_id_of (Z.of_nat i + 1), citation_of d).
Proof.
  rewrite serialize_chunks_with_ids_loop_imap. cbn [snd].
  by rewrite list_lookup_imap, Hd.
Qed.

End Lookups.

Section Citations.

Lemma serialize_chunks_with_ids_unfold (docs : list Document) :
  serialize_chunks_with_ids docs
  = (join (nl +:+ nl) (serialize_chunks_with_ids_loop docs).1,
     (serialize_chunks_with_ids_loop docs).2).
Proof.
  unfold serialize_chunks_with_ids.
  by destruct (serialize_chunks_with_ids_loop docs).
Qed.

Lemma citations_imap (docs : list Document) :
  (serialize_chunks_with_ids docs).2
  = imap (λ i d, (chunk_id_of (Z.of_nat i + 1), citation_of d)) docs.
Proof.
  by rewrite serialize_chunks_with_ids_unfold,
    serialize_chunks_with_ids_loop_imap.
Qed.

Lemma citations_keys (docs : list Document) :
  dict_keys (serialize_chunks_with_ids docs).2
  = imap (λ i _, chunk_id_of (Z.of_nat i + 1)) docs.
Proof.
  rewrite citations_imap. unfold dict_keys. by rewrite fmap_imap.
Qed.

Lemma citations_keys_NoDup (docs : list Document) :
  NoDup (dict_keys (serialize_chunks_with_ids docs).2).
Proof.
  rewrite citations_keys. apply NoDup_alt. intros a b k Ha Hb.
  rewrite list_lookup_imap in Ha, Hb.
  destruct (docs !! a); [|done]. destruct (docs !! b); [|done].
  cbn in Ha, Hb. assert (chunk_id_of (Z.of_nat a + 1)
                         = chunk_id_of (Z.of_nat b + 1)) as Heq by congruence.
  apply chunk_id_of_inj in Heq. lia.
Qed.

(** In a dict whose keys are pairwise distinct, the entry at any position is
    the one found under its key. *)
Lemma dict_lookup_at {V : Type} (dct : pydict V) (i : nat) (k : string)
    (v : V) :
  NoDup (dict_keys dct) → dct !! i = Some (k, v) → dict_lookup k dct = Some v.
Proof.
  unfold dict_keys. revert i.
  induction dct as [|[k' v'] dct IH]; intros i Hnd Hi; [done|].
  cbn [fmap list_fmap fst] in Hnd. apply NoDup_cons in Hnd as [Hnotin Hnd].
  cbn [dict_lookup]. destruct i as [|i].
  - cbn in Hi. injection Hi as -> ->. by rewrite decide_True.
  - cbn in Hi. rewrite decide_False; [by eapply IH|].
    intros ->. apply Hnotin. apply list_elem_of_fmap.
    exists (k, v). split; [done|]. by eapply list_elem_of_lookup_2.
Qed.

Lemma citations_by_id (docs : list Document) (i : nat) (d : Document) :
  docs !! i = Some d →
  dict_lookup (chunk_id_of (Z.of_nat i + 1)) (serialize_chunks_with_ids docs).2
  = Some (citation_of d).
Proof.
  intros Hd. apply (dict_lookup_at _ i).
  - apply citations_keys_NoDup.
  - rewrite serialize_chunks_with_ids_unfold. cbn [snd].
    by apply citations_entry_lookup.
Qed.

(** The returned context is its blocks joined by a blank line, one block
    per passage, and block [i] is that of passage [i]. *)
Lemma plain_context_block (docs : list Document) (i : nat) (d : Document) :
  docs !! i = Some d →
  serialize_chunks docs = join (nl +:+ nl) (serialize_chunks_parts docs)
  ∧ length (serialize_chunks_parts docs) = length docs
  ∧ serialize_chunks_parts docs !! i
    = Some (plain_block (Z.of_nat i + 1) d).
Proof.
  intros Hd. split; [done|]. split; [|by apply plain_part_lookup].
  by rewrite serialize_chunks_parts_imap, length_imap.
Qed.

Lemma cited_context_block (docs : list Document) (i : nat) (d : Document) :
  docs !! i = Some d →
  (serialize_chunks_with_ids docs).1
  = join (nl +:+ nl) (serialize_chunks_with_ids_loop docs).1
  ∧ length (serialize_chunks_with_ids_loop docs).1 = length docs
  ∧ (serialize_chunks_with_ids_loop docs).1 !! i
    = Some (cited_block (Z.of_nat i + 1) d).
Proof.
  intros Hd. split; [by rewrite serialize_chunks_with_ids_unfold|].
  split; [|by apply cited_part_lookup].
  rewrite serialize_chunks_with_ids_loop_imap. cbn [fst].
  by rewrite length_imap.
Qed.

Lemma page_num_of_resolved (d : Document) :
  page_num_of d = resolved_page (metadata d).
Proof.
  unfold page_num_of, resolved_page, py_or, dict_get, dict_get_default.
  by destruct (metadata d !! "page"), (metadata d !! "page_number").
Qed.

End Citations.

(** ** Well-formed passages never raise *)

Section NoRaise.

Import Dynamic.

Lemma run_page_num_ok (d : Document) :
  run_page_num (to_raw d) = Ok (page_num_of d).
Proof.
  unfold run_page_num, page_num_of, py_or, dict_get.
  cbn [to_raw raw_metadata get_method bind].
  change (default PyNone (metadata d !! "page"))
    with (dict_get_default (metadata d) "page" PyNone).
  by destruct (truthy (dict_get_default (metadata d) "page" PyNone)).
Qed.

Lemma run_page_num_any (c : pyobj) (m : gmap string pyval) :
  run_page_num (mkRawDocument c (ODict m))
  = Ok (py_or (dict_get m "page")
          (dict_get_default m "page_number" (PyStr "unknown"))).
Proof.
  unfold run_page_num, py_or, dict_get.
  cbn [raw_metadata get_method bind].
  change (default PyNone (m !! "page"))
    with (dict_get_default m "page" PyNone).
  by destruct (truthy (dict_get_default m "page" PyNone)).
Qed.

Lemma format_method_ok (v : pyval) :
  formats v = true → format_method v = Ok (py_format v).
Proof. unfold format_method. by intros ->. Qed.

Lemma format_method_raise (v : pyval) :
  formats v = false → format_method v = Raise ValueError.
Proof. unfold format_method. by intros ->. Qed.

(** A loop index below the bound formats. *)
Lemma formats_idx (idx : Z) :
  0 ≤ idx < int_str_bound → formats (PyInt idx) = true.
Proof. intros Hidx. unfold formats. apply Z.ltb_lt. lia. Qed.

(** The bound is used as it stands, never computed. *)
Lemma int_str_bound_ge : 10 ≤ int_str_bound.
Proof.
  unfold int_str_bound, max_str_digits.
  transitivity (10 ^ 1); [done|]. apply Z.pow_le_mono_r; lia.
Qed.

Lemma formats_small (z : Z) : Z.abs z < 10 → formats (PyInt z) = true.
Proof.
  intros Hz. pose proof int_str_bound_ge. unfold formats.
  apply Z.ltb_lt. lia.
Qed.

Lemma py_or_int (z : Z) (v : pyval) : z ≠ 0 → py_or (PyInt z) v = PyInt z.
Proof.
  intros Hz. unfold py_or. cbn [truthy]. by destruct (Z.eqb_spec z 0).
Qed.

Lemma page_num_of_large :
  page_num_of doc_large_page = PyInt (int_str_bound - 1).
Proof.
  unfold page_num_of.
  change (dict_get (metadata doc_large_page) "page")
    with (PyInt (int_str_bound - 1)).
  apply py_or_int. pose proof int_str_bound_ge. lia.
Qed.

Lemma page_num_of_huge : page_num_of doc_huge_page = PyInt int_str_bound.
Proof.
  unfold page_num_of.
  change (dict_get (metadata doc_huge_page) "page")
    with (PyInt int_str_bound).
  apply py_or_int. pose proof int_str_bound_ge. lia.
Qed.

Lemma formats_large : formats (PyInt (int_str_bound - 1)) = true.
Proof.
  pose proof int_str_bound_ge. unfold formats. apply Z.ltb_lt. lia.
Qed.

Lemma formats_huge : formats (PyInt int_str_bound) = false.
Proof.
  pose proof int_str_bound_ge. unfold formats. apply Z.ltb_ge. lia.
Qed.

(** A page that does not format makes the body of the plain loop raise
    [ValueError] whatever the content is, and the body of the citation loop
    when the content is a [str]. *)
Lemma run_serialize_chunks_body_value_error (parts : list string) (idx : Z)
    (c : pyobj) (m : gmap string pyval) :
  0 ≤ idx < int_str_bound →
  formats (py_or (dict_get m "page")
             (dict_get_default m "page_number" (PyStr "unknown"))) = false →
  run_serialize_chunks_body parts (idx, mkRawDocument c (ODict m))
  = Raise ValueError.
Proof.
  intros Hidx Hp. unfold run_serialize_chunks_body.
  rewrite run_page_num_any. cbn [bind].
  rewrite (format_method_ok (PyInt idx)) by (by apply formats_idx).
  cbn [bind]. by rewrite (format_method_raise _ Hp).
Qed.

Lemma run_serialize_chunks_with_ids_body_value_error
    (st : list string * pydict citation) (idx : Z) (s : string)
    (m : gmap string pyval) :
  0 ≤ idx < int_str_bound →
  formats (py_or (dict_get m "page")
             (dict_get_default m "page_number" (PyStr "unknown"))) = false →
  run_serialize_chunks_with_ids_body st
    (idx, mkRawDocument (OVal (PyStr s)) (ODict m))
  = Raise ValueError.
Proof.
  intros Hidx Hp. destruct st as [parts cits].
  unfold run_serialize_chunks_with_ids_body.
  rewrite (format_method_ok (PyInt idx)) by (by apply formats_idx).
  cbn [bind]. rewrite run_page_num_any.
  cbn [bind raw_metadata raw_page_content get_method strip_method].
  by rewrite (format_method_raise _ Hp).
Qed.

(** With content that is not a [str] the body of the citation loop raises
    [AttributeError] before it renders the page. *)
Lemma run_serialize_chunks_with_ids_body_no_strip
    (st : list string * pydict citation) (idx : Z) (c : pyobj)
    (m : gmap string pyval) :
  0 ≤ idx < int_str_bound →
  strip_method c = Raise AttributeError →
  run_serialize_chunks_with_ids_body st (idx, mkRawDocument c (ODict m))
  = Raise AttributeError.
Proof.
  intros Hidx Hc. destruct st as [parts cits].
  unfold run_serialize_chunks_with_ids_body.
  rewrite (format_method_ok (PyInt idx)) by (by apply formats_idx).
  cbn [bind]. rewrite run_page_num_any.
  cbn [bind raw_metadata raw_page_content get_method]. by rewrite Hc.
Qed.

Lemma formats_page_huge :
  formats (py_or (dict_get (metadata doc_huge_page) "page")
             (dict_get_default (metadata doc_huge_page) "page_number"
                (PyStr "unknown"))) = false.
Proof.
  pose proof page_num_of_huge as Hpage. unfold page_num_of in Hpage.
  rewrite Hpage. apply formats_huge.
Qed.

Lemma page_formats_to_raw (d : Document) :
  page_formats (to_raw d) = formats (page_num_of d).
Proof. reflexivity. Qed.

(** A typed passage whose page formats is well-formed as a raw one. *)
Lemma renders_to_raw (d : Document) :
  formats (page_num_of d) = true →
  well_formed (to_raw d) = true ∧ page_formats (to_raw d) = true.
Proof. intros Hd. split; [done|]. by rewrite page_formats_to_raw. Qed.

Lemma run_serialize_chunks_body_ok (parts : list string) (idx : Z)
    (d : Document) :
  0 ≤ idx < int_str_bound →
  formats (page_num_of d) = true →
  run_serialize_chunks_body parts (idx, to_raw d)
  = Ok (serialize_chunks_body parts (idx, d)).
Proof.
  intros Hidx Hp. unfold run_serialize_chunks_body.
  rewrite run_page_num_ok. cbn [bind].
  rewrite (format_method_ok (PyInt idx)) by (by apply formats_idx).
  cbn [bind]. by rewrite (format_method_ok _ Hp).
Qed.

Lemma run_serialize_chunks_with_ids_body_ok
    (st : list string * pydict citation) (idx : Z) (d : Document) :
  0 ≤ idx < int_str_bound →
  formats (page_num_of d) = true →
  run_serialize_chunks_with_ids_body st (idx, to_raw d)
  = Ok (serialize_chunks_with_ids_body st (idx, d)).
Proof.
  intros Hidx Hp. destruct st as [parts cits].
  unfold run_serialize_chunks_with_ids_body.
  rewrite (format_method_ok (PyInt idx)) by (by apply formats_idx).
  cbn [bind]. rewrite run_page_num_ok.
  cbn [bind to_raw raw_metadata raw_page_content get_method strip_method].
  by rewrite (format_method_ok _ Hp).
Qed.

(** A loop whose body returns on every passage is the fold of that body. *)
Lemma for_each_enumerate_ok {St : Type}
    (body : St → Z * RawDocument → result St)
    (pure_body : St → Z * Document → St)
    (docs : list Document) (start : Z) (st : St) :
  (∀ st idx d, 0 ≤ idx < int_str_bound → formats (page_num_of d) = true →
     body st (idx, to_raw d) = Ok (pure_body st (idx, d))) →
  0 ≤ start →
  start + Z.of_nat (length docs) ≤ int_str_bound →
  Forall (λ d, formats (page_num_of d) = true) docs →
  for_each body (enumerate (to_raw <$> docs) start) st
  = Ok (fold_left pure_body (enumerate docs start) st).
Proof.
  intros Hbody. revert start st.
  induction docs as [|d docs IH]; intros start st H0 Hlen Hf; [done|].
  apply Forall_cons in Hf as [Hd Hf].
  cbn [fmap list_fmap enumerate for_each fold_left].
  cbn [length] in Hlen.
  rewrite Hbody by (done || lia). cbn [bind].
  apply IH; [lia | lia | done].
Qed.

Lemma run_serialize_chunks_ok (docs : list Document) :
  Z.of_nat (length docs) < int_str_bound →
  Forall (λ d, formats (page_num_of d) = true) docs →
  run_serialize_chunks (to_raw <$> docs) = Ok (serialize_chunks docs).
Proof.
  intros Hlen Hf. unfold run_serialize_chunks.
  rewrite (for_each_enumerate_ok _ serialize_chunks_body);
    [done | | lia | lia | done].
  intros st idx d. apply run_serialize_chunks_body_ok.
Qed.

Lemma run_serialize_chunks_with_ids_ok (docs : list Document) :
  Z.of_nat (length docs) < int_str_bound →
  Forall (λ d, formats (page_num_of d) = true) docs →
  run_serialize_chunks_with_ids (to_raw <$> docs)
  = Ok (serialize_chunks_with_ids docs).
Proof.
  intros Hlen Hf. unfold run_serialize_chunks_with_ids.
  rewrite (for_each_enumerate_ok _ serialize_chunks_with_ids_body);
    [| | lia | lia | done].
  - cbn [bind]. by rewrite serialize_chunks_with_ids_unfold.
  - intros st idx d. apply run_serialize_chunks_with_ids_body_ok.
Qed.

Lemma well_formed_to_raw (raws : list RawDocument) :
  Forall (λ r, well_formed r = true ∧ page_formats r = true) raws →
  ∃ docs : list Document,
    raws = to_raw <$> docs
    ∧ Forall (λ d, formats (page_num_of d) = true) docs.
Proof.
  induction 1 as [|r raws [Hr Hp] _ [docs [-> Hdocs]]]; [by exists []|].
  destruct r as [[[| | |s]|] [|m]]; try done.
  exists (mkDocument s m :: docs). split; [done|].
  by apply Forall_cons.
Qed.

End NoRaise.

(** ** Properties of the serializers *)

(** C1: in both serializers the page shown for a passage is its [page]
    attribute when present and truthy, else its [page_number] attribute when
    present, else the string "unknown"; the citation record stores the same
    value.  Each returned context is its blocks joined by a blank line, one
    block per passage, and the block of the passage is the one written out
    here. *)
Theorem page_value_rendered (docs : list Document) (i : nat) (d : Document) :
  docs !! i = Some d →
  (serialize_chunks docs = join (nl +:+ nl) (serialize_chunks_parts docs)
   ∧ length (serialize_chunks_parts docs) = length docs
   ∧ serialize_chunks_parts docs !! i
     = Some ("Chunk " +:+ pretty (Z.of_nat i + 1) +:+ " (page="
             +:+ py_format (resolved_page (metadata d)) +:+ "):" +:+ nl
             +:+ strip (page_content d)))
  ∧ ((serialize_chunks_with_ids docs).1
     = join (nl +:+ nl) (serialize_chunks_with_ids_loop docs).1
     ∧ length (serialize_chunks_with_ids_loop docs).1 = length docs
     ∧ (serialize_chunks_with_ids_loop docs).1 !! i
       = Some ("[C" +:+ pretty (Z.of_nat i + 1) +:+ "] Chunk from page "
               +:+ py_format (resolved_page (metadata d)) +:+ ":" +:+ nl
               +:+ strip (page_content d)))
  ∧ cit_page <$> dict_lookup ("C" +:+ pretty (Z.of_nat i + 1))
                   (serialize_chunks_with_ids docs).2
    = Some (resolved_page (metadata d)).
Proof.
  intros Hd. rewrite <- page_num_of_resolved. split; [|split].
  - destruct (plain_context_block docs i d Hd) as (Hjoin & Hlen & Hi).
    split; [exact Hjoin | split; [exact Hlen|]].
    rewrite Hi. f_equal.
    unfold plain_block, plain_header. by rewrite !append_assoc.
  - destruct (cited_context_block docs i d Hd) as (Hjoin & Hlen & Hi).
    split; [exact Hjoin | split; [exact Hlen|]].
    rewrite Hi. f_equal.
    unfold cited_block, cited_header, chunk_id_of. by rewrite !append_assoc.
  - fold (chunk_id_of (Z.of_nat i + 1)). by rewrite (citations_by_id _ _ _ Hd).
Qed.

(** A passage with [{page: 0, page_number: 9}] shows page 9 in both returned
    contexts and stores 9. *)
Lemma page_value_rendered_witness :
  serialize_chunks [doc_page0] = "Chunk 1 (page=9):" +:+ nl +:+ "Gamma."
  ∧ (serialize_chunks_with_ids [doc_page0]).1
    = "[C1] Chunk from page 9:" +:+ nl +:+ "Gamma."
  ∧ cit_page <$> dict_lookup "C1" (serialize_chunks_with_ids [doc_page0]).2
    = Some (PyInt 9).
Proof.
  destruct (page_value_rendered [doc_page0] 0 doc_page0 eq_refl)
    as ((Hs & _ & _) & (Hc & _ & _) & Hp).
  exact (conj Hs (conj Hc Hp)).
Defined.

(** C2: the two-passage scenario of the specification gives exactly the
    stated context string and citation table. *)
Theorem concrete_scenario :
  serialize_chunks_with_ids [doc_alpha; doc_beta]
  = ("[C1] Chunk from page 1:" +:+ nl +:+ "Alpha text." +:+ nl +:+ nl
     +:+ "[C2] Chunk from page 2:" +:+ nl +:+ "Beta text.",
     [("C1", {| cit_page := PyInt 1; cit_source := PyStr "doc.pdf";
                cit_snippet := "Alpha text...." |});
      ("C2", {| cit_page := PyInt 2; cit_source := PyStr "unknown";
                cit_snippet := "Beta text...." |})]).
Proof. vm_compute. reflexivity. Qed.

(** C3: the i-th block of either output is built from the i-th passage, the
    i-th citation id is "C" followed by the decimal of i (from 1), and the
    citation table has one entry per passage, under distinct keys, in input
    order. *)
Theorem ordering_invariant (docs : list Document) :
  serialize_chunks docs
  = join (nl +:+ nl) (imap (λ i d, plain_block (Z.of_nat i + 1) d) docs)
  ∧ (serialize_chunks_with_ids docs).1
    = join (nl +:+ nl) (imap (λ i d, cited_block (Z.of_nat i + 1) d) docs)
  ∧ (serialize_chunks_with_ids docs).2
    = imap (λ i d, ("C" +:+ pretty (Z.of_nat i + 1), citation_of d)) docs
  ∧ length (serialize_chunks_with_ids docs).2 = length docs
  ∧ NoDup (dict_keys (serialize_chunks_with_ids docs).2)
  ∧ (∀ (i : nat) (d : Document), docs !! i = Some d →
       dict_lookup ("C" +:+ pretty (Z.of_nat i + 1))
         (serialize_chunks_with_ids docs).2
       = Some (citation_of d)).
Proof.
  split; [|split; [|split; [|split; [|split]]]].
  - unfold serialize_chunks. by rewrite serialize_chunks_parts_imap.
  - by rewrite serialize_chunks_with_ids_unfold,
      serialize_chunks_with_ids_loop_imap.
  - apply citations_imap.
  - by rewrite citations_imap, length_imap.
  - apply citations_keys_NoDup.
  - intros i d Hd. by apply citations_by_id.
Qed.

(** C4: the snippet is the first 100 characters of the trimmed content
    followed by "...", whatever the length of the content. *)
Theorem snippet_truncation (docs : list Document) (i : nat) (d : Document) :
  docs !! i = Some d →
  let content := strip (page_content d) in
  cit_snippet <$> dict_lookup ("C" +:+ pretty (Z.of_nat i + 1))
                    (serialize_chunks_with_ids docs).2
  = Some (slice_to 100 content +:+ "...")
  ∧ String.length (slice_to 100 content)
    = Nat.min 100 (String.length content)
  ∧ (∃ rest, content = slice_to 100 content +:+ rest)
  ∧ ((String.length content <= 100)%nat →
     slice_to 100 content +:+ "..." = content +:+ "...").
Proof.
  intros Hd content. split; [|split; [|split]].
  - fold (chunk_id_of (Z.of_nat i + 1)). by rewrite (citations_by_id _ _ _ Hd).
  - apply slice_to_length.
  - apply slice_to_prefix.
  - intros Hle. by rewrite slice_to_short.
Qed.

(** Content of 50 characters: the snippet is all of it and then "...". *)
Lemma snippet_truncation_witness :
  cit_snippet <$> dict_lookup "C1" (serialize_chunks_with_ids [doc_50]).2
  = Some (text50 +:+ "...").
Proof.
  destruct (snippet_truncation [doc_50] 0 doc_50 eq_refl) as (H & _ & _ & Hs).
  cbv zeta in H, Hs. rewrite Hs in H by (vm_compute; lia). exact H.
Defined.

(** Content of 150 characters: the snippet is its first 100 characters and
    then "...". *)
Example snippet_150 :
  cit_snippet <$> dict_lookup "C1" (serialize_chunks_with_ids [doc_150]).2
  = Some (text50 +:+ text50 +:+ "...").
Proof. vm_compute. reflexivity. Qed.

(** C5: on the empty sequence the plain serializer returns the empty string
    and the citation serializer returns the empty string with an empty
    table. *)
Theorem empty_input :
  serialize_chunks [] = ""
  ∧ serialize_chunks_with_ids [] = ("", []).
Proof. split; reflexivity. Qed.

(** C6: in both serializers the body of a block is the content without its
    leading and trailing whitespace; what lies between comes out unchanged.
    Each returned context is its blocks joined by a blank line, one block
    per passage. *)
Theorem content_trimmed (docs : list Document) (i : nat) (d : Document) :
  docs !! i = Some d →
  (serialize_chunks docs = join (nl +:+ nl) (serialize_chunks_parts docs)
   ∧ length (serialize_chunks_parts docs) = length docs
   ∧ serialize_chunks_parts docs !! i
     = Some (plain_header (Z.of_nat i + 1) d +:+ nl
             +:+ strip (page_content d)))
  ∧ ((serialize_chunks_with_ids docs).1
     = join (nl +:+ nl) (serialize_chunks_with_ids_loop docs).1
     ∧ length (serialize_chunks_with_ids_loop docs).1 = length docs
     ∧ (serialize_chunks_with_ids_loop docs).1 !! i
       = Some (cited_header (Z.of_nat i + 1) d +:+ nl
               +:+ strip (page_content d)))
  ∧ (∃ l r, page_content d = l +:+ strip (page_content d) +:+ r
            ∧ all_space l = true ∧ all_space r = true
            ∧ starts_with_space (strip (page_content d)) = false
            ∧ ends_with_space (strip (page_content d)) = false)
  ∧ (∀ l m r, page_content d = l +:+ m +:+ r →
       all_space l = true → all_space r = true →
       starts_with_space m = false → ends_with_space m = false →
       strip (page_content d) = m).
Proof.
  intros Hd. split; [|split; [|split]].
  - by apply plain_context_block.
  - by apply cited_context_block.
  - apply strip_split.
  - intros l m r -> Hl Hr Hs He. by apply strip_middle.
Qed.

(** Content "  hello world  \n" is serialized as "hello world" in both
    returned contexts. *)
Lemma content_trimmed_witness :
  serialize_chunks [doc_padded]
  = "Chunk 1 (page=unknown):" +:+ nl +:+ "hello world"
  ∧ (serialize_chunks_with_ids [doc_padded]).1
    = "[C1] Chunk from page unknown:" +:+ nl +:+ "hello world"
  ∧ strip (page_content doc_padded) = "hello world".
Proof.
  destruct (content_trimmed [doc_padded] 0 doc_padded eq_refl)
    as ((Hp & _ & _) & (Hc & _ & _) & _ & Hm).
  split; [exact Hp | split; [exact Hc |]].
  apply (Hm "  " "hello world" ("  " +:+ nl)); reflexivity.
Defined.

(** Content "line1\nline2" keeps its inner newline. *)
Example two_lines_kept :
  serialize_chunks [doc_two_lines]
  = "Chunk 1 (page=unknown):" +:+ nl +:+ "line1" +:+ nl +:+ "line2".
Proof. vm_compute. reflexivity. Qed.

(** C7: the [source] of the citation record is the [source] attribute when
    the key is present, whatever its value, and the string "unknown" when
    the key is absent. *)
Theorem source_resolution (docs : list Document) (i : nat) (d : Document) :
  docs !! i = Some d →
  cit_source <$> dict_lookup ("C" +:+ pretty (Z.of_nat i + 1))
                   (serialize_chunks_with_ids docs).2
  = Some match metadata d !! "source" with
         | Some v => v
         | None => PyStr "unknown"
         end.
Proof.
  intros Hd. fold (chunk_id_of (Z.of_nat i + 1)).
  by rewrite (citations_by_id _ _ _ Hd).
Qed.

(** A present but empty [source] is kept. *)
Lemma source_resolution_witness :
  cit_source <$> dict_lookup "C1"
                   (serialize_chunks_with_ids [doc_empty_source]).2
  = Some (PyStr "").
Proof.
  exact (source_resolution [doc_empty_source] 0 doc_empty_source eq_refl).
Defined.

(** An absent [source] gives "unknown". *)
Example source_absent :
  cit_source <$> dict_lookup "C1" (serialize_chunks_with_ids [doc_padded]).2
  = Some (PyStr "unknown").
Proof. vm_compute. reflexivity. Qed.

(** C8, as the code has it: on fewer than [10 ^ 4300] passages whose
    content is a [str], whose metadata is a dict and whose rendered page is
    not an [int] of more than 4300 digits, both serializers return a result
    and raise nothing, whichever of the keys are present, absent or
    falsy. *)
Theorem serializers_total (raws : list Dynamic.RawDocument) :
  Z.of_nat (length raws) < Dynamic.int_str_bound →
  Forall (λ r, Dynamic.well_formed r = true
               ∧ Dynamic.page_formats r = true) raws →
  ∃ docs : list Document,
    raws = Dynamic.to_raw <$> docs
    ∧ Dynamic.run_serialize_chunks raws = Dynamic.Ok (serialize_chunks docs)
    ∧ Dynamic.run_serialize_chunks_with_ids raws
      = Dynamic.Ok (serialize_chunks_with_ids docs).
Proof.
  intros Hlen Hwf. destruct (well_formed_to_raw raws Hwf) as [docs [-> Hf]].
  rewrite length_fmap in Hlen.
  exists docs. split; [done|].
  split; [by apply run_serialize_chunks_ok
         | by apply run_serialize_chunks_with_ids_ok].
Qed.

(** Four passages, one of them with a page of exactly 4300 digits. *)
Lemma serializers_total_witness :
  ∃ docs : list Document,
    Dynamic.to_raw <$> [doc_alpha; doc_page0; doc_blank; doc_large_page]
    = Dynamic.to_raw <$> docs
    ∧ Dynamic.run_serialize_chunks
        (Dynamic.to_raw <$> [doc_alpha; doc_page0; doc_blank; doc_large_page])
      = Dynamic.Ok (serialize_chunks docs)
    ∧ Dynamic.run_serialize_chunks_with_ids
        (Dynamic.to_raw <$> [doc_alpha; doc_page0; doc_blank; doc_large_page])
      = Dynamic.Ok (serialize_chunks_with_ids docs).
Proof.
  apply (serializers_total
           (Dynamic.to_raw
              <$> [doc_alpha; doc_page0; doc_blank; doc_large_page])).
  - change (4 < Dynamic.int_str_bound). pose proof int_str_bound_ge. lia.
  - cbn [fmap list_fmap].
    apply Forall_cons; split; [apply renders_to_raw|].
    { change (page_num_of doc_alpha) with (PyInt 1). by apply formats_small. }
    apply Forall_cons; split; [apply renders_to_raw|].
    { change (page_num_of doc_page0) with (PyInt 9). by apply formats_small. }
    apply Forall_cons; split; [apply renders_to_raw|].
    { change (page_num_of doc_blank) with (PyInt 4). by apply formats_small. }
    apply Forall_cons; split; [apply renders_to_raw|by apply Forall_nil].
    rewrite page_num_of_large. apply formats_large.
Defined.

(** C8 as stated fails: a passage with [str] content and a dict for
    metadata, whose [page] is an [int] of 4301 digits, makes both
    serializers raise [ValueError]. *)
Lemma serializers_total_counterexample :
  Forall (λ r, Dynamic.well_formed r = true) [Dynamic.to_raw doc_huge_page]
  ∧ Dynamic.run_serialize_chunks [Dynamic.to_raw doc_huge_page]
    = Dynamic.Raise Dynamic.ValueError
  ∧ Dynamic.run_serialize_chunks_with_ids [Dynamic.to_raw doc_huge_page]
    = Dynamic.Raise Dynamic.ValueError.
Proof.
  pose proof int_str_bound_ge as Hge.
  split; [by apply Forall_cons|]. unfold Dynamic.to_raw. split.
  - unfold Dynamic.run_serialize_chunks.
    cbn [enumerate Dynamic.for_each].
    rewrite run_serialize_chunks_body_value_error;
      [done | lia | apply formats_page_huge].
  - unfold Dynamic.run_serialize_chunks_with_ids.
    cbn [enumerate Dynamic.for_each].
    rewrite run_serialize_chunks_with_ids_body_value_error;
      [done | lia | apply formats_page_huge].
Qed.

(** Outside that domain the calls raise too: metadata that is [None] has no
    [get], and content that is not a [str] has no [strip]. *)
Example metadata_none_raises :
  Dynamic.run_serialize_chunks
    [Dynamic.mkRawDocument (Dynamic.OVal (PyStr "x")) (Dynamic.OVal PyNone)]
  = Dynamic.Raise Dynamic.AttributeError.
Proof. reflexivity. Qed.

Example content_none_raises :
  Dynamic.run_serialize_chunks_with_ids
    [Dynamic.mkRawDocument (Dynamic.OVal PyNone) (Dynamic.ODict ∅)]
  = Dynamic.Raise Dynamic.AttributeError.
Proof.
  pose proof int_str_bound_ge as Hge.
  unfold Dynamic.run_serialize_chunks_with_ids.
  cbn [enumerate Dynamic.for_each].
  rewrite run_serialize_chunks_with_ids_body_no_strip; [done | lia | done].
Qed.

(** With a page of 4301 digits and content that is [None], the plain
    serializer renders its header first and raises [ValueError]; the
    citation serializer calls [strip] first and raises [AttributeError]. *)
Example huge_page_none_content :
  Dynamic.run_serialize_chunks
    [Dynamic.mkRawDocument (Dynamic.OVal PyNone)
       (Dynamic.ODict (metadata doc_huge_page))]
  = Dynamic.Raise Dynamic.ValueError
  ∧ Dynamic.run_serialize_chunks_with_ids
      [Dynamic.mkRawDocument (Dynamic.OVal PyNone)
         (Dynamic.ODict (metadata doc_huge_page))]
    = Dynamic.Raise Dynamic.AttributeError.
Proof.
  pose proof int_str_bound_ge as Hge. split.
  - unfold Dynamic.run_serialize_chunks.
    cbn [enumerate Dynamic.for_each].
    rewrite run_serialize_chunks_body_value_error;
      [done | lia | apply formats_page_huge].
  - unfold Dynamic.run_serialize_chunks_with_ids.
    cbn [enumerate Dynamic.for_each].
    rewrite run_serialize_chunks_with_ids_body_no_strip; [done | lia | done].
Qed.

(** C9: for content that is empty or all whitespace the snippet is "..."
    alone and, in both returned contexts, the block of the passage is the
    header, a newline and nothing more. *)
Theorem blank_content (docs : list Document) (i : nat) (d : Document) :
  docs !! i = Some d →
  all_space (page_content d) = true →
  cit_snippet <$> dict_lookup ("C" +:+ pretty (Z.of_nat i + 1))
                    (serialize_chunks_with_ids docs).2
  = Some "..."
  ∧ (serialize_chunks docs = join (nl +:+ nl) (serialize_chunks_parts docs)
     ∧ length (serialize_chunks_parts docs) = length docs
     ∧ serialize_chunks_parts docs !! i
       = Some (plain_header (Z.of_nat i + 1) d +:+ nl))
  ∧ ((serialize_chunks_with_ids docs).1
     = join (nl +:+ nl) (serialize_chunks_with_ids_loop docs).1
     ∧ length (serialize_chunks_with_ids_loop docs).1 = length docs
     ∧ (serialize_chunks_with_ids_loop docs).1 !! i
       = Some (cited_header (Z.of_nat i + 1) d +:+ nl)).
Proof.
  intros Hd Hsp. split; [|split].
  - fold (chunk_id_of (Z.of_nat i + 1)). rewrite (citations_by_id _ _ _ Hd).
    cbn [fmap option_fmap option_map citation_of cit_snippet].
    by rewrite strip_all_space.
  - destruct (plain_context_block docs i d Hd) as (Hjoin & Hlen & Hi).
    split; [exact Hjoin | split; [exact Hlen|]].
    rewrite Hi. unfold plain_block.
    by rewrite strip_all_space, append_nil_r.
  - destruct (cited_context_block docs i d Hd) as (Hjoin & Hlen & Hi).
    split; [exact Hjoin | split; [exact Hlen|]].
    rewrite Hi. unfold cited_block.
    by rewrite strip_all_space, append_nil_r.
Qed.

(** A passage of blanks only: both returned contexts stop after the
    newline. *)
Lemma blank_content_witness :
  cit_snippet <$> dict_lookup "C1" (serialize_chunks_with_ids [doc_blank]).2
  = Some "..."
  ∧ serialize_chunks [doc_blank] = "Chunk 1 (page=4):" +:+ nl
  ∧ (serialize_chunks_with_ids [doc_blank]).1
    = "[C1] Chunk from page 4:" +:+ nl.
Proof.
  destruct (blank_content [doc_blank] 0 doc_blank eq_refl eq_refl)
    as (Hs & (Hp & _ & _) & (Hc & _ & _)).
  exact (conj Hs (conj Hp Hc)).
Defined.

(** C10: the page stored under "C<i>" is the page shown in the header of the
    i-th block of the returned context, and the snippet without its final
    "..." is a prefix of the body of that block. *)
Theorem citation_consistent (docs : list Document) (i : nat) (d : Document) :
  docs !! i = Some d →
  ∃ (r : citation) (body pre rest : string),
    (serialize_chunks_with_ids docs).1
    = join (nl +:+ nl) (serialize_chunks_with_ids_loop docs).1
    ∧ length (serialize_chunks_with_ids_loop docs).1 = length docs
    ∧ dict_lookup ("C" +:+ pretty (Z.of_nat i + 1))
        (serialize_chunks_with_ids docs).2 = Some r
    ∧ (serialize_chunks_with_ids_loop docs).1 !! i
      = Some ("[C" +:+ pretty (Z.of_nat i + 1) +:+ "] Chunk from page "
              +:+ py_format (cit_page r) +:+ ":" +:+ nl +:+ body)
    ∧ body = strip (page_content d)
    ∧ cit_snippet r = pre +:+ "..."
    ∧ body = pre +:+ rest.
Proof.
  intros Hd.
  destruct (slice_to_prefix 100 (strip (page_content d))) as [rest Hrest].
  destruct (cited_context_block docs i d Hd) as (Hjoin & Hlen & Hi).
  exists (citation_of d), (strip (page_content d)),
    (slice_to 100 (strip (page_content d))), rest.
  split; [exact Hjoin | split; [exact Hlen|]].
  split; [|split; [|split; [|split]]]; try done.
  - fold (chunk_id_of (Z.of_nat i + 1)). by apply citations_by_id.
  - rewrite Hi. f_equal.
    unfold cited_block, cited_header, chunk_id_of. by rewrite !append_assoc.
Qed.

(** The second passage of the two-passage scenario. *)
Lemma citation_consistent_witness :
  ∃ (r : citation) (body pre rest : string),
    (serialize_chunks_with_ids [doc_alpha; doc_beta]).1
    = "[C1] Chunk from page 1:" +:+ nl +:+ "Alpha text." +:+ nl +:+ nl
      +:+ "[C2] Chunk from page 2:" +:+ nl +:+ "Beta text."
    ∧ length (serialize_chunks_with_ids_loop [doc_alpha; doc_beta]).1
      = 2%nat
    ∧ dict_lookup "C2" (serialize_chunks_with_ids [doc_alpha; doc_beta]).2
      = Some r
    ∧ (serialize_chunks_with_ids_loop [doc_alpha; doc_beta]).1 !! 1%nat
      = Some ("[C2] Chunk from page " +:+ py_format (cit_page r) +:+ ":"
              +:+ nl +:+ body)
    ∧ body = "Beta text."
    ∧ cit_snippet r = pre +:+ "..."
    ∧ body = pre +:+ rest.
Proof.
  exact (citation_consistent [doc_alpha; doc_beta] 1 doc_beta eq_refl).
Defined.

(** ** Further properties: the citation table as a lookup structure *)

Section Table.

Lemma string_length_app (a b : string) :
  String.length (a +:+ b) = (String.length a + String.length b)%nat.
Proof.
  induction a as [|x a IH]; [done|]. rewrite append_cons. cbn. by rewrite IH.
Qed.

(** Whatever a dict returns under a key sits at some position with it. *)
Lemma dict_lookup_Some_at {V : Type} (dct : pydict V) (k : string) (v : V) :
  dict_lookup k dct = Some v → ∃ i : nat, dct !! i = Some (k, v).
Proof.
  induction dct as [|[k' v'] dct IH]; [done|]. cbn [dict_lookup].
  destruct (decide (k' = k)) as [->|Hne].
  - intros [= ->]. by exists 0%nat.
  - intros [i Hi]%IH. by exists (S i).
Qed.

Lemma dict_lookup_app {V : Type} (a b : pydict V) (k : string) :
  dict_lookup k (a ++ b)
  = match dict_lookup k a with
    | Some v => Some v
    | None => dict_lookup k b
    end.
Proof.
  induction a as [|[k' v'] a IH]; [done|]. cbn [app dict_lookup].
  by destruct (decide (k' = k)).
Qed.

Lemma citations_lookup_inv (docs : list Document) (k : string) (r : citation) :
  dict_lookup k (serialize_chunks_with_ids docs).2 = Some r →
  ∃ (i : nat) (d : Document),
    docs !! i = Some d ∧ k = chunk_id_of (Z.of_nat i + 1) ∧ r = citation_of d.
Proof.
  intros [i Hi]%dict_lookup_Some_at. rewrite citations_imap in Hi.
  rewrite list_lookup_imap in Hi. destruct (docs !! i) as [d|] eqn:Hd; [|done].
  cbn in Hi. injection Hi as <- <-. by exists i, d.
Qed.

End Table.

(** X1: the citation table answers under a key exactly when the key is the
    id "C<i>" of a passage of the input, and then with that passage's
    record; under every other key it has nothing. *)
Theorem citations_lookup_iff (docs : list Document) (k : string)
    (r : citation) :
  dict_lookup k (serialize_chunks_with_ids docs).2 = Some r
  ↔ ∃ (i : nat) (d : Document),
      docs !! i = Some d
      ∧ k = "C" +:+ pretty (Z.of_nat i + 1)
      ∧ r = citation_of d.
Proof.
  split.
  - apply citations_lookup_inv.
  - intros (i & d & Hd & -> & ->). by apply citations_by_id.
Qed.

(** X2: an id whose number is below 1 or above the number of passages is
    not in the citation table. *)
Theorem citations_lookup_out_of_range (docs : list Document) (j : Z) :
  j < 1 ∨ Z.of_nat (length docs) < j →
  dict_lookup ("C" +:+ pretty j) (serialize_chunks_with_ids docs).2 = None.
Proof.
  intros Hj.
  destruct (dict_lookup _ _) as [r|] eqn:Hr; [|done].
  apply citations_lookup_inv in Hr as (i & d & Hd & Hk & _).
  apply chunk_id_of_inj in Hk. apply lookup_lt_Some in Hd. lia.
Qed.

Lemma citations_lookup_out_of_range_witness :
  dict_lookup "C3" (serialize_chunks_with_ids [doc_alpha; doc_beta]).2 = None
  ∧ dict_lookup "C0" (serialize_chunks_with_ids [doc_alpha; doc_beta]).2
    = None.
Proof.
  split.
  - apply (citations_lookup_out_of_range [doc_alpha; doc_beta] 3).
    right. cbn. lia.
  - apply (citations_lookup_out_of_range [doc_alpha; doc_beta] 0).
    left. lia.
Defined.

(** X3: every snippet in the citation table has between 3 and 103
    characters. *)
Theorem snippet_length_bounds (docs : list Document) (k : string)
    (r : citation) :
  dict_lookup k (serialize_chunks_with_ids docs).2 = Some r →
  (3 ≤ String.length (cit_snippet r) ≤ 103)%nat.
Proof.
  intros (i & d & _ & _ & ->)%citations_lookup_inv.
  cbn [citation_of cit_snippet].
  rewrite string_length_app, slice_to_length. cbn [String.length]. lia.
Qed.

Lemma snippet_length_bounds_witness :
  (3 ≤ String.length (text50 +:+ text50 +:+ "...") ≤ 103)%nat.
Proof.
  apply (snippet_length_bounds [doc_150] "C1"
           (mkCitation (PyStr "unknown") (PyStr "unknown")
              (text50 +:+ text50 +:+ "..."))).
  vm_compute. reflexivity.
Defined.

(** X4: either output is empty exactly when the input is: the plain context,
    the cited context and the citation table. *)
Theorem output_empty_iff (docs : list Document) :
  (serialize_chunks docs = "" ↔ docs = [])
  ∧ ((serialize_chunks_with_ids docs).1 = "" ↔ docs = [])
  ∧ ((serialize_chunks_with_ids docs).2 = [] ↔ docs = []).
Proof.
  split; [|split]; (split; [|by intros ->]).
  - unfold serialize_chunks. rewrite serialize_chunks_parts_imap.
    destruct docs as [|d docs]; [done|]. rewrite imap_cons. cbn [join].
    by destruct (imap _ docs).
  - rewrite serialize_chunks_with_ids_unfold,
      serialize_chunks_with_ids_loop_imap. cbn [fst].
    destruct docs as [|d docs]; [done|]. rewrite imap_cons. cbn [join].
    by destruct (imap _ docs).
  - rewrite citations_imap. by destruct docs.
Qed.

(** ** Further properties: growing and editing the input *)

Section Growing.

Lemma join_app (sep : string) (a b : list string) :
  a ≠ [] → b ≠ [] →
  join sep (a ++ b) = join sep a +:+ sep +:+ join sep b.
Proof.
  intros Ha Hb. induction a as [|p a IH]; [done|].
  destruct a as [|q a].
  - destruct b as [|q b]; [done|]. done.
  - change (join sep (p :: q :: a)) with (p +:+ sep +:+ join sep (q :: a)).
    change (join sep ((p :: q :: a) ++ b))
      with (p +:+ sep +:+ join sep ((q :: a) ++ b)).
    rewrite IH by done. by rewrite !append_assoc.
Qed.

Lemma imap_nonempty {A B : Type} (f : nat → A → B) (l : list A) :
  l ≠ [] → imap f l ≠ [].
Proof. by destruct l. Qed.

Lemma imap_insert {A B : Type} (f : nat → A → B) (l : list A) (j : nat)
    (x : A) :
  imap f (<[j:=x]> l) = <[j:=f j x]> (imap f l).
Proof.
  apply list_eq. intros i.
  rewrite list_lookup_imap, !list_lookup_insert, length_imap.
  case_decide as Hij.
  - by destruct Hij as [-> _].
  - by rewrite list_lookup_imap.
Qed.

Lemma imap_Forall2 {A B : Type} (R : A → A → Prop) (f : nat → A → B)
    (l k : list A) :
  Forall2 R l k → (∀ i x y, R x y → f i x = f i y) → imap f l = imap f k.
Proof.
  intros Hlk. revert f. induction Hlk as [|x y l k Hxy _ IH]; intros f Hf;
    [done|].
  rewrite !imap_cons. f_equal; [by apply Hf|].
  apply IH. intros i x' y' Hxy'. by apply Hf.
Qed.

End Growing.

(** X5: appending passages appends to the plain context: the output for the
    longer list is the output for the shorter one, a blank line, and the
    blocks of the new passages numbered on from where the old ones stop. *)
Theorem serialize_chunks_app (docs more : list Document) :
  docs ≠ [] → more ≠ [] →
  serialize_chunks (docs ++ more)
  = serialize_chunks docs +:+ (nl +:+ nl)
    +:+ join (nl +:+ nl)
          (imap (λ i d, plain_block (Z.of_nat (length docs + i) + 1) d) more).
Proof.
  intros Hdocs Hmore. unfold serialize_chunks.
  rewrite !serialize_chunks_parts_imap, imap_app.
  by rewrite join_app by (by apply imap_nonempty).
Qed.

Lemma serialize_chunks_app_witness :
  serialize_chunks ([doc_alpha] ++ [doc_beta])
  = serialize_chunks [doc_alpha] +:+ (nl +:+ nl)
    +:+ "Chunk 2 (page=2):" +:+ nl +:+ "Beta text.".
Proof.
  exact (serialize_chunks_app [doc_alpha] [doc_beta]
           ltac:(discriminate) ltac:(discriminate)).
Defined.

(** X6: the same for the citation serializer: the context grows at its end
    by a blank line and the new blocks, and the citation table grows at its
    end by the new entries, with ids numbered on. *)
Theorem serialize_chunks_with_ids_app (docs more : list Document) :
  docs ≠ [] → more ≠ [] →
  serialize_chunks_with_ids (docs ++ more)
  = ((serialize_chunks_with_ids docs).1 +:+ (nl +:+ nl)
     +:+ join (nl +:+ nl)
           (imap (λ i d, cited_block (Z.of_nat (length docs + i) + 1) d)
              more),
     (serialize_chunks_with_ids docs).2
     ++ imap (λ i d, ("C" +:+ pretty (Z.of_nat (length docs + i) + 1),
                      citation_of d)) more).
Proof.
  intros Hdocs Hmore.
  rewrite !serialize_chunks_with_ids_unfold,
    !serialize_chunks_with_ids_loop_imap. cbn [fst snd].
  rewrite !imap_app. by rewrite join_app by (by apply imap_nonempty).
Qed.

Lemma serialize_chunks_with_ids_app_witness :
  serialize_chunks_with_ids ([doc_alpha] ++ [doc_beta])
  = ((serialize_chunks_with_ids [doc_alpha]).1 +:+ (nl +:+ nl)
     +:+ "[C2] Chunk from page 2:" +:+ nl +:+ "Beta text.",
     (serialize_chunks_with_ids [doc_alpha]).2
     ++ [("C2", {| cit_page := PyInt 2; cit_source := PyStr "unknown";
                   cit_snippet := "Beta text...." |})]).
Proof.
  exact (serialize_chunks_with_ids_app [doc_alpha] [doc_beta]
           ltac:(discriminate) ltac:(discriminate)).
Defined.

(** X7: citation ids are stable under appending: what the table of a list
    holds under a key, the table of any longer list holds under it too. *)
Theorem citation_ids_stable (docs more : list Document) (k : string)
    (r : citation) :
  dict_lookup k (serialize_chunks_with_ids docs).2 = Some r →
  dict_lookup k (serialize_chunks_with_ids (docs ++ more)).2 = Some r.
Proof.
  intros Hk. rewrite !citations_imap, imap_app, dict_lookup_app.
  rewrite citations_imap in Hk. by rewrite Hk.
Qed.

Lemma citation_ids_stable_witness :
  dict_lookup "C1" (serialize_chunks_with_ids ([doc_alpha] ++ [doc_beta])).2
  = Some {| cit_page := PyInt 1; cit_source := PyStr "doc.pdf";
            cit_snippet := "Alpha text...." |}.
Proof.
  apply (citation_ids_stable [doc_alpha] [doc_beta]). vm_compute. reflexivity.
Defined.

(** X8: replacing the passage at one position changes the block and the
    citation entry at that position and nothing else. *)
Theorem replace_passage_local (docs : list Document) (j : nat)
    (d' : Document) :
  serialize_chunks (<[j:=d']> docs)
  = join (nl +:+ nl)
      (<[j:=plain_block (Z.of_nat j + 1) d']> (serialize_chunks_parts docs))
  ∧ (serialize_chunks_with_ids (<[j:=d']> docs)).1
    = join (nl +:+ nl)
        (<[j:=cited_block (Z.of_nat j + 1) d']>
           (serialize_chunks_with_ids_loop docs).1)
  ∧ (serialize_chunks_with_ids (<[j:=d']> docs)).2
    = <[j:=("C" +:+ pretty (Z.of_nat j + 1), citation_of d')]>
        (serialize_chunks_with_ids docs).2.
Proof.
  split; [|split].
  - unfold serialize_chunks. by rewrite !serialize_chunks_parts_imap, imap_insert.
  - rewrite serialize_chunks_with_ids_unfold,
      !serialize_chunks_with_ids_loop_imap. cbn [fst]. by rewrite imap_insert.
  - by rewrite !citations_imap, imap_insert.
Qed.

(** X9: the plain serializer reads nothing of a passage but its trimmed
    content and the keys [page] and [page_number]: lists that agree on these,
    passage by passage, give the same string. *)
Theorem serialize_chunks_reads_only (docs docs' : list Document) :
  Forall2 (λ d d',
    strip (page_content d) = strip (page_content d')
    ∧ metadata d !! "page" = metadata d' !! "page"
    ∧ metadata d !! "page_number" = metadata d' !! "page_number")
    docs docs' →
  serialize_chunks docs = serialize_chunks docs'.
Proof.
  intros H. unfold serialize_chunks. rewrite !serialize_chunks_parts_imap.
  f_equal. eapply imap_Forall2; [exact H|].
  intros i d d' (Hc & Hp & Hn).
  unfold plain_block, plain_header, page_num_of, dict_get, dict_get_default.
  by rewrite Hc, Hp, Hn.
Qed.

Lemma serialize_chunks_reads_only_witness :
  serialize_chunks [doc_alpha_noisy] = serialize_chunks [doc_alpha].
Proof.
  apply (serialize_chunks_reads_only [doc_alpha_noisy] [doc_alpha]).
  repeat constructor.
Defined.

(** X10: the citation serializer reads, besides those, only the key
    [source]. *)
Theorem serialize_chunks_with_ids_reads_only (docs docs' : list Document) :
  Forall2 (λ d d',
    strip (page_content d) = strip (page_content d')
    ∧ metadata d !! "page" = metadata d' !! "page"
    ∧ metadata d !! "page_number" = metadata d' !! "page_number"
    ∧ metadata d !! "source" = metadata d' !! "source")
    docs docs' →
  serialize_chunks_with_ids docs = serialize_chunks_with_ids docs'.
Proof.
  intros H. rewrite !serialize_chunks_with_ids_unfold,
    !serialize_chunks_with_ids_loop_imap. cbn [fst snd].
  f_equal; [f_equal|]; (eapply imap_Forall2; [exact H|]);
    intros i d d' (Hc & Hp & Hn & Hs).
  - unfold cited_block, cited_header, page_num_of, dict_get, dict_get_default.
    by rewrite Hc, Hp, Hn.
  - unfold citation_of, page_num_of, dict_get, dict_get_default.
    by rewrite Hc, Hp, Hn, Hs.
Qed.

Lemma serialize_chunks_with_ids_reads_only_witness :
  serialize_chunks_with_ids [doc_alpha_noisy]
  = serialize_chunks_with_ids [doc_alpha].
Proof.
  apply (serialize_chunks_with_ids_reads_only [doc_alpha_noisy] [doc_alpha]).
  repeat constructor.
Defined.

(** X11: for a passage without [page_number], the page stored and shown is
    never a falsy value: it is the passage's truthy [page], or "unknown";
    the returned plain context shows it in the block of the passage. *)
Theorem page_without_page_number (docs : list Document) (i : nat)
    (d : Document) :
  docs !! i = Some d →
  metadata d !! "page_number" = None →
  ∃ r : citation,
    dict_lookup ("C" +:+ pretty (Z.of_nat i + 1))
      (serialize_chunks_with_ids docs).2 = Some r
    ∧ truthy (cit_page r) = true
    ∧ (metadata d !! "page" = Some (cit_page r)
       ∨ cit_page r = PyStr "unknown")
    ∧ serialize_chunks docs = join (nl +:+ nl) (serialize_chunks_parts docs)
    ∧ length (serialize_chunks_parts docs) = length docs
    ∧ serialize_chunks_parts docs !! i
      = Some ("Chunk " +:+ pretty (Z.of_nat i + 1) +:+ " (page="
              +:+ py_format (cit_page r) +:+ "):" +:+ nl
              +:+ strip (page_content d)).
Proof.
  intros Hd Hn. exists (citation_of d).
  destruct (plain_context_block docs i d Hd) as (Hjoin & Hlen & Hi).
  split; [|split; [|split; [|split; [exact Hjoin | split; [exact Hlen|]]]]].
  - fold (chunk_id_of (Z.of_nat i + 1)). by apply citations_by_id.
  - cbn [citation_of cit_page].
    unfold page_num_of, py_or, dict_get, dict_get_default. rewrite Hn.
    by destruct (truthy (default PyNone (metadata d !! "page"))) eqn:Ht.
  - cbn [citation_of cit_page].
    unfold page_num_of, py_or, dict_get, dict_get_default. rewrite Hn.
    destruct (metadata d !! "page") as [v|]; simpl; [|by right].
    destruct (truthy v); [by left | by right].
  - rewrite Hi. f_equal.
    unfold plain_block, plain_header. cbn [citation_of cit_page].
    by rewrite !append_assoc.
Qed.

(** A passage with only [{page: 0}]: the record holds "unknown" and the
    returned context shows it. *)
Lemma page_without_page_number_witness :
  ∃ r : citation,
    dict_lookup "C1" (serialize_chunks_with_ids [doc_only_page0]).2 = Some r
    ∧ truthy (cit_page r) = true
    ∧ (metadata doc_only_page0 !! "page" = Some (cit_page r)
       ∨ cit_page r = PyStr "unknown")
    ∧ serialize_chunks [doc_only_page0]
      = "Chunk 1 (page=unknown):" +:+ nl +:+ "Epsilon."
    ∧ length (serialize_chunks_parts [doc_only_page0]) = 1%nat
    ∧ serialize_chunks_parts [doc_only_page0] !! 0%nat
      = Some ("Chunk 1 (page=" +:+ py_format (cit_page r) +:+ "):" +:+ nl
              +:+ "Epsilon.").
Proof.
  exact (page_without_page_number [doc_only_page0] 0 doc_only_page0
           eq_refl eq_refl).
Defined.

Example only_page0_shows_unknown :
  serialize_chunks [doc_only_page0]
  = "Chunk 1 (page=unknown):" +:+ nl +:+ "Epsilon.".
Proof. vm_compute. reflexivity. Qed.

(** ** Further properties: when the calls raise *)

Section Raise.

Import Dynamic.





End Raise.



(** ** Further properties: what reaches the context and the snippet *)

(** X13: [source] goes into the citation table only: the context of the
    citation serializer is the same for lists that agree, passage by
    passage, on trimmed content, [page] and [page_number]. *)
Theorem cited_context_ignores_source (docs docs' : list Document) :
  Forall2 (λ d d',
    strip (page_content d) = strip (page_content d')
    ∧ metadata d !! "page" = metadata d' !! "page"
    ∧ metadata d !! "page_number" = metadata d' !! "page_number")
    docs docs' →
  (serialize_chunks_with_ids docs).1 = (serialize_chunks_with_ids docs').1.
Proof.
  intros H. rewrite !serialize_chunks_with_ids_unfold,
    !serialize_chunks_with_ids_loop_imap. cbn [fst].
  f_equal. eapply imap_Forall2; [exact H|].
  intros i d d' (Hc & Hp & Hn).
  unfold cited_block, cited_header, page_num_of, dict_get, dict_get_default.
  by rewrite Hc, Hp, Hn.
Qed.

Lemma cited_context_ignores_source_witness :
  (serialize_chunks_with_ids
     [mkDocument "Alpha text." (<["page" := PyInt 1]> ∅)]).1
  = (serialize_chunks_with_ids [doc_alpha]).1.
Proof.
  apply (cited_context_ignores_source
           [mkDocument "Alpha text." (<["page" := PyInt 1]> ∅)] [doc_alpha]).
  repeat constructor.
Defined.

(** X14: the snippet holds the whole block body (before its "...") exactly
    when the trimmed content has at most 100 characters; a longer body is
    cut. *)
Theorem snippet_whole_iff (docs : list Document) (i : nat) (d : Document)
    (r : citation) :
  docs !! i = Some d →
  dict_lookup ("C" +:+ pretty (Z.of_nat i + 1))
    (serialize_chunks_with_ids docs).2 = Some r →
  cit_snippet r = strip (page_content d) +:+ "..."
  ↔ (String.length (strip (page_content d)) ≤ 100)%nat.
Proof.
  intros Hd Hr. fold (chunk_id_of (Z.of_nat i + 1)) in Hr.
  rewrite (citations_by_id _ _ _ Hd) in Hr. injection Hr as <-.
  cbn [citation_of cit_snippet]. split.
  - intros Heq. apply (f_equal String.length) in Heq.
    rewrite !string_length_app, slice_to_length in Heq. lia.
  - intros Hle. by rewrite slice_to_short.
Qed.

Lemma snippet_whole_iff_witness :
  text50 +:+ text50 +:+ "..." = (text50 +:+ text50 +:+ text50) +:+ "..."
  ↔ (150 ≤ 100)%nat.
Proof.
  exact (snippet_whole_iff [doc_150] 0 doc_150
           (mkCitation (PyStr "unknown") (PyStr "unknown")
              (text50 +:+ text50 +:+ "..."))
           eq_refl eq_refl).
Defined.
